(** * Homematic(IP) Local: the climate adapter

    A shallow embedding of [custom_components/homematicip_local/climate.py]:
    the enum translation tables, the read-side properties of
    [HaHomematicClimate] and its command methods, followed by the theorems
    that relate them to the written specification.

    Conventions.
    - A Python [dict] is an insertion-ordered association list with unique
      keys ([dict_set] overwrites in place, otherwise appends).
    - [Mapping[str, Any]] (state attributes, [**kwargs]) is a [gmap string PyVal].
    - A [float] is an IEEE binary64 value ([PrimFloat.float]); the adapter
      never computes with one, it only passes them along.
    - An exception is the [Raise] branch of [result].
    - The command methods run in a small state monad over [World]: the
      system clock, the trace of calls made on the device handle and the
      records handed to the module logger. *)

From Stdlib Require Import ZArith String PrimFloat.
From stdpp Require Import base option list strings gmap.

Open Scope string_scope.
Open Scope Z_scope.

(** ** Python values *)

(** The values that travel through [Any]-typed positions. *)
Inductive PyVal : Type :=
| PyNone
| PyBool (b : bool)
| PyInt (z : Z)
| PyFloat (f : float)
| PyStr (s : string).

(** [x is None] *)
Definition is_none (x : PyVal) : bool :=
  match x with PyNone => true | _ => false end.

(** An [Optional[float]] seen as a Python value. *)
Definition of_float (x : option float) : PyVal :=
  match x with Some f => PyFloat f | None => PyNone end.

(** An [Optional[int]] seen as a Python value. *)
Definition of_int (x : option Z) : PyVal :=
  match x with Some z => PyInt z | None => PyNone end.

(** An [Optional[str]] seen as a Python value. *)
Definition of_str (x : option string) : PyVal :=
  match x with Some s => PyStr s | None => PyNone end.

(** [mapping.get(key)]: the stored value, [None] when the key is absent. *)
Definition mapping_get (m : gmap string PyVal) (key : string) : PyVal :=
  default PyNone (m !! key).

(** ** Exceptions *)

Inductive exn : Type :=
| KeyError
| ValueError (what : string)
| OverflowError.

Inductive result (A : Type) : Type :=
| Ok (a : A)
| Raise (e : exn).
Arguments Ok {A} a.
Arguments Raise {A} e.

Definition result_bind {A B} (r : result A) (k : A -> result B) : result B :=
  match r with Ok a => k a | Raise e => Raise e end.

(** ** Dictionaries *)

Section Dict.
Context {K V : Type} `{EqDecision K}.

(** [d.get(k)] with [None] for a missing key. *)
Fixpoint dict_get (k : K) (d : list (K * V)) : option V :=
  match d with
  | [] => None
  | (k', v) :: d' => if decide (k = k') then Some v else dict_get k d'
  end.

(** [k in d] *)
Definition dict_contains (k : K) (d : list (K * V)) : bool :=
  match dict_get k d with Some _ => true | None => false end.

(** [d[k]], which raises [KeyError] for a missing key. *)
Definition dict_getitem (k : K) (d : list (K * V)) : result V :=
  match dict_get k d with Some v => Ok v | None => Raise KeyError end.

(** [d[k] = v]: an existing key keeps its position, a new one goes last. *)
Fixpoint dict_set (k : K) (v : V) (d : list (K * V)) : list (K * V) :=
  match d with
  | [] => [(k, v)]
  | (k', v') :: d' =>
      if decide (k = k') then (k, v) :: d' else (k', v') :: dict_set k v d'
  end.

(** [d.items()] *)
Definition dict_items (d : list (K * V)) : list (K * V) := d.
End Dict.

(** One turn of [{v: k for k, v in d.items()}]: store the item's key under
    the item's value. *)
Definition dict_flip_into {K V : Type} `{EqDecision V}
    (acc : list (V * K)) (kv : K * V) : list (V * K) :=
  dict_set (snd kv) (fst kv) acc.

(** [{v: k for k, v in d.items()}] *)
Definition dict_inverse {K V : Type} `{EqDecision V} (d : list (K * V)) : list (V * K) :=
  foldl dict_flip_into [] (dict_items d).

(** ** Enumerations of the device library (hahomematic)

    The library, not this file, owns these enums.  The members the adapter
    names are constructors of their own; [other] stands for any member the
    adapter does not name, identified by its string value.  All three are
    string enums: a member compares and prints as its value. *)

Module HmHvacMode.
Inductive t : Type := AUTO | COOL | HEAT | OFF | other (value : string).

Definition value (m : t) : string :=
  match m with
  | AUTO => "auto" | COOL => "cool" | HEAT => "heat" | OFF => "off"
  | other v => v
  end.

#[global] Instance eq_dec : EqDecision t.
Proof. solve_decision. Defined.
End HmHvacMode.

Module HmHvacAction.
Inductive t : Type := COOL | HEAT | IDLE | OFF | other (value : string).

Definition value (a : t) : string :=
  match a with
  | COOL => "cooling" | HEAT => "heating" | IDLE => "idle" | OFF => "off"
  | other v => v
  end.

(** [bool(member)]: a string enum member is falsy exactly when its value
    is the empty string. *)
Definition truthy (a : t) : bool :=
  match value a with EmptyString => false | String _ _ => true end.

#[global] Instance eq_dec : EqDecision t.
Proof. solve_decision. Defined.
End HmHvacAction.

Module PresetMode.
(** A member of the library's preset enum, identified by its value. *)
Record t : Type := mk { value : string }.

(** [str(member)] *)
Definition str (m : t) : string := value m.

#[global] Instance eq_dec : EqDecision t.
Proof. solve_decision. Defined.
End PresetMode.

(** ** Enumerations and constants of the platform (homeassistant) *)

Module HVACMode.
Inductive t : Type := OFF | HEAT | COOL | HEAT_COOL | AUTO | DRY | FAN_ONLY.

Definition value (m : t) : string :=
  match m with
  | OFF => "off" | HEAT => "heat" | COOL => "cool" | HEAT_COOL => "heat_cool"
  | AUTO => "auto" | DRY => "dry" | FAN_ONLY => "fan_only"
  end.

Definition members : list t := [OFF; HEAT; COOL; HEAT_COOL; AUTO; DRY; FAN_ONLY].

(** [HVACMode(value=s)]: the member whose value is [s]; [ValueError]
    when there is none. *)
Definition call (s : string) : result t :=
  match list_find (fun m => value m = s) members with
  | Some (_, m) => Ok m
  | None => Raise (ValueError s)
  end.

#[global] Instance eq_dec : EqDecision t.
Proof. solve_decision. Defined.
End HVACMode.

Module HVACAction.
Inductive t : Type := COOLING | DRYING | FAN | HEATING | IDLE | OFF | PREHEATING.

#[global] Instance eq_dec : EqDecision t.
Proof. solve_decision. Defined.
End HVACAction.

(** [ClimateEntityFeature] is an [IntFlag]: a set of features is the
    bitwise or of its members. *)
Module ClimateEntityFeature.
Definition t : Type := Z.
Definition TARGET_TEMPERATURE : t := 1.
Definition TARGET_TEMPERATURE_RANGE : t := 2.
Definition TARGET_HUMIDITY : t := 4.
Definition FAN_MODE : t := 8.
Definition PRESET_MODE : t := 16.
Definition SWING_MODE : t := 32.
Definition AUX_HEAT : t := 64.
Definition TURN_OFF : t := 128.
Definition TURN_ON : t := 256.

(** [flag in features] *)
Definition contains (features flag : t) : bool :=
  Z.eqb (Z.land features flag) flag.
End ClimateEntityFeature.

Inductive UnitOfTemperature : Type := CELSIUS | FAHRENHEIT | KELVIN.

Definition ATTR_CURRENT_HUMIDITY : string := "current_humidity".
Definition ATTR_CURRENT_TEMPERATURE : string := "current_temperature".
Definition ATTR_PRESET_MODE : string := "preset_mode".
Definition ATTR_TEMPERATURE : string := "temperature".
Definition PRESET_AWAY : string := "away".
Definition PRESET_BOOST : string := "boost".
Definition PRESET_COMFORT : string := "comfort".
Definition PRESET_ECO : string := "eco".
Definition PRESET_NONE : string := "none".
Definition STATE_UNAVAILABLE : string := "unavailable".
Definition STATE_UNKNOWN : string := "unknown".

(** The platform's [State]: what the restore step hands back. *)
Record State : Type := mkState {
  state : string;
  attributes : gmap string PyVal;
}.

(** ** Dates and times *)

(** A naive [datetime] is a count of microseconds since [datetime.min]
    (0001-01-01T00:00:00); [datetime.max] is 9999-12-31T23:59:59.999999. *)
Module datetime.
Record t : Type := mk { micros : Z }.

Definition MAX_MICROS : Z := 3652059 * 86400 * 1000000 - 1.

Definition in_range (us : Z) : bool := (0 <=? us) && (us <=? MAX_MICROS).
End datetime.

Module timedelta.
Record t : Type := mk { micros : Z }.

(** [timedelta(minutes=m)] *)
Definition of_minutes (m : Z) : t := mk (m * 60 * 1000000).
End timedelta.

(** [d - td]: Python raises [OverflowError] when the result leaves the
    representable range. *)
Definition datetime_sub (d : datetime.t) (td : timedelta.t) : result datetime.t :=
  let us := datetime.micros d - timedelta.micros td in
  if datetime.in_range us then Ok (datetime.mk us) else Raise OverflowError.

(** ** The device handle *)

(** The readable state of a [BaseClimateEntity], as listed by the handle
    contract the adapter consumes. *)
Module BaseClimateEntity.
Record t : Type := mk {
  is_valid : bool;
  target_temperature : option float;
  current_temperature : option float;
  current_humidity : option Z;
  hvac_action : option HmHvacAction.t;
  hvac_mode : HmHvacMode.t;
  hvac_modes : list HmHvacMode.t;
  min_temp : float;
  max_temp : float;
  preset_mode : PresetMode.t;
  preset_modes : list PresetMode.t;
  supports_preset : bool;
  target_temperature_step : float;
}.

(** The ways the library may move the three range attributes. *)
Inductive change : Type :=
| change_min_temp (v : float)
| change_max_temp (v : float)
| change_target_temperature_step (v : float).

Definition apply (h : t) (c : change) : t :=
  match c with
  | change_min_temp v =>
      mk (is_valid h) (target_temperature h) (current_temperature h)
         (current_humidity h) (hvac_action h) (hvac_mode h) (hvac_modes h)
         v (max_temp h) (preset_mode h) (preset_modes h) (supports_preset h)
         (target_temperature_step h)
  | change_max_temp v =>
      mk (is_valid h) (target_temperature h) (current_temperature h)
         (current_humidity h) (hvac_action h) (hvac_mode h) (hvac_modes h)
         (min_temp h) v (preset_mode h) (preset_modes h) (supports_preset h)
         (target_temperature_step h)
  | change_target_temperature_step v =>
      mk (is_valid h) (target_temperature h) (current_temperature h)
         (current_humidity h) (hvac_action h) (hvac_mode h) (hvac_modes h)
         (min_temp h) (max_temp h) (preset_mode h) (preset_modes h)
         (supports_preset h) v
  end.
End BaseClimateEntity.

(** The command methods of the handle.  What a command does to the device
    is the library's business; the adapter's part is which call it makes,
    with which arguments. *)
Inductive HandleCall : Type :=
| set_temperature (temperature : PyVal)
| set_hvac_mode (hvac_mode : HmHvacMode.t)
| set_preset_mode (preset_mode : PresetMode.t)
| enable_away_mode_by_calendar (start end_ : datetime.t) (away_temperature : float)
| enable_away_mode_by_duration (hours : Z) (away_temperature : float)
| disable_away_mode.

(** ** Effects of the command methods *)

(** [_LOGGER.warning(msg, *args)] *)
Record LogRecord : Type := warning { msg : string; args : list PyVal }.

Record World : Type := mkWorld {
  clock : datetime.t;
  calls : list HandleCall;
  log : list LogRecord;
}.

Definition M (A : Type) : Type := World -> result A * World.

Definition ret {A} (a : A) : M A := fun w => (Ok a, w).

Definition bind {A B} (c : M A) (k : A -> M B) : M B :=
  fun w => match c w with
           | (Ok a, w') => k a w'
           | (Raise e, w') => (Raise e, w')
           end.

Declare Scope py_scope.
Delimit Scope py_scope with py.
Notation "x <- c ;; k" := (bind c (fun x => k))
  (at level 100, c at next level, right associativity) : py_scope.

(** A property read that may raise, inside a command. *)
Definition lift {A} (r : result A) : M A := fun w => (r, w).

(** The world after one more call on the handle. *)
Definition with_call (w : World) (c : HandleCall) : World :=
  mkWorld (clock w) (calls w ++ [c]) (log w).

(** The world after one more record in the log. *)
Definition with_record (w : World) (r : LogRecord) : World :=
  mkWorld (clock w) (calls w) (log w ++ [r]).

(** [await self._hm_entity.<method>(...)] *)
Definition handle_call (c : HandleCall) : M unit :=
  fun w => (Ok tt, with_call w c).

(** [_LOGGER.warning(msg, *args)] *)
Definition logger_warning (msg : string) (args : list PyVal) : M unit :=
  fun w => (Ok tt, with_record w (warning msg args)).

(** [datetime.now()] *)
Definition datetime_now : M datetime.t := fun w => (Ok (clock w), w).

(** [b and x] used as a condition, where [x] is an object or [None]: the
    object when both are truthy. *)
Definition and_then {A} (b : bool) (x : option A) : option A :=
  if b then x else None.

(** ** Module constants of climate.py *)

Definition SUPPORTED_HA_PRESET_MODES : list string :=
  [PRESET_AWAY; PRESET_BOOST; PRESET_COMFORT; PRESET_ECO; PRESET_NONE].

Definition HM_TO_HA_HVAC_MODE : list (HmHvacMode.t * HVACMode.t) :=
  [ (HmHvacMode.AUTO, HVACMode.AUTO);
    (HmHvacMode.COOL, HVACMode.COOL);
    (HmHvacMode.HEAT, HVACMode.HEAT);
    (HmHvacMode.OFF, HVACMode.OFF) ].

Definition HA_TO_HM_HVAC_MODE : list (HVACMode.t * HmHvacMode.t) :=
  dict_inverse HM_TO_HA_HVAC_MODE.

Definition HM_TO_HA_ACTION : list (HmHvacAction.t * HVACAction.t) :=
  [ (HmHvacAction.COOL, HVACAction.COOLING);
    (HmHvacAction.HEAT, HVACAction.HEATING);
    (HmHvacAction.IDLE, HVACAction.IDLE);
    (HmHvacAction.OFF, HVACAction.OFF) ].

(** ** The adapter *)

(** The shared coordination object; the adapter only keeps the reference. *)
Record ControlUnit : Type := mkControlUnit { entry_id : string }.

Module HaHomematicClimate.

(** An adapter instance.  [_hm_entity] is a reference to a handle the
    library owns and mutates: the field holds the state that handle has
    at the moment a property is read. *)
Record t : Type := mk {
  _cu : ControlUnit;
  _hm_entity : BaseClimateEntity.t;
  _restored_state : option State;
  _attr_temperature_unit : UnitOfTemperature;
  _attr_target_temperature_step : float;
}.

(** [HaHomematicClimate(control_unit=..., hm_entity=...)].  The restored
    state starts out empty; the platform's restore step fills it in. *)
Definition __init__ (control_unit : ControlUnit)
    (hm_entity : BaseClimateEntity.t) : t :=
  {| _cu := control_unit;
     _hm_entity := hm_entity;
     _restored_state := None;
     _attr_temperature_unit := CELSIUS;
     _attr_target_temperature_step :=
       BaseClimateEntity.target_temperature_step hm_entity |}.

(** The same instance once the referenced handle has reached state [h]. *)
Definition observing (self : t) (h : BaseClimateEntity.t) : t :=
  mk (_cu self) h (_restored_state self) (_attr_temperature_unit self)
     (_attr_target_temperature_step self).

(** The same instance once the restore step has stored [s]. *)
Definition restored (self : t) (s : option State) : t :=
  mk (_cu self) (_hm_entity self) s (_attr_temperature_unit self)
     (_attr_target_temperature_step self).

(** Modelled from the spec: the property [is_restored] that the adapter
    inherits from [HaHomematicGenericRestoreEntity] (generic_entity.py is
    not among the sources).  The fallback applies "if the adapter's
    restore state is populated and not in an unknown/unavailable state". *)
Definition is_restored (self : t) : bool :=
  match _restored_state self with
  | Some s => negb (bool_decide (state s ∈ [STATE_UNKNOWN; STATE_UNAVAILABLE]))
  | None => false
  end.

(** [ClimateEntity.target_temperature_step]: the class defines no
    property of its own, so the platform's getter serves the attribute
    that [__init__] assigned. *)
Definition target_temperature_step (self : t) : float :=
  _attr_target_temperature_step self.

Definition target_temperature (self : t) : PyVal :=
  if BaseClimateEntity.is_valid (_hm_entity self) then
    of_float (BaseClimateEntity.target_temperature (_hm_entity self))
  else
    match and_then (is_restored self) (_restored_state self) with
    | Some restored_state => mapping_get (attributes restored_state) ATTR_TEMPERATURE
    | None => PyNone
    end.

Definition current_temperature (self : t) : PyVal :=
  if BaseClimateEntity.is_valid (_hm_entity self) then
    of_float (BaseClimateEntity.current_temperature (_hm_entity self))
  else
    match and_then (is_restored self) (_restored_state self) with
    | Some restored_state =>
        mapping_get (attributes restored_state) ATTR_CURRENT_TEMPERATURE
    | None => PyNone
    end.

Definition current_humidity (self : t) : PyVal :=
  if BaseClimateEntity.is_valid (_hm_entity self) then
    of_int (BaseClimateEntity.current_humidity (_hm_entity self))
  else
    match and_then (is_restored self) (_restored_state self) with
    | Some restored_state =>
        mapping_get (attributes restored_state) ATTR_CURRENT_HUMIDITY
    | None => PyNone
    end.

Definition hvac_action (self : t) : result (option HVACAction.t) :=
  match BaseClimateEntity.hvac_action (_hm_entity self) with
  | Some action =>
      if HmHvacAction.truthy action && dict_contains action HM_TO_HA_ACTION
      then result_bind (dict_getitem action HM_TO_HA_ACTION) (fun a => Ok (Some a))
      else Ok None
  | None => Ok None
  end.

Definition hvac_mode (self : t) : result (option HVACMode.t) :=
  if BaseClimateEntity.is_valid (_hm_entity self) then
    if dict_contains (BaseClimateEntity.hvac_mode (_hm_entity self)) HM_TO_HA_HVAC_MODE
    then result_bind
           (dict_getitem (BaseClimateEntity.hvac_mode (_hm_entity self))
              HM_TO_HA_HVAC_MODE)
           (fun m => Ok (Some m))
    else Ok (Some HVACMode.OFF)
  else
    match and_then (is_restored self) (_restored_state self) with
    | Some s =>
        let restored_state := state s in
        if negb (bool_decide (restored_state ∈ [STATE_UNKNOWN; STATE_UNAVAILABLE]))
        then result_bind (HVACMode.call restored_state) (fun m => Ok (Some m))
        else Ok None
    | None => Ok None
    end.

Definition min_temp (self : t) : float :=
  BaseClimateEntity.min_temp (_hm_entity self).

Definition max_temp (self : t) : float :=
  BaseClimateEntity.max_temp (_hm_entity self).

Definition supported_features (self : t) : ClimateEntityFeature.t :=
  let supported_features :=
    Z.lor (Z.lor ClimateEntityFeature.TARGET_TEMPERATURE ClimateEntityFeature.TURN_OFF)
          ClimateEntityFeature.TURN_ON in
  if BaseClimateEntity.supports_preset (_hm_entity self)
  then Z.lor supported_features ClimateEntityFeature.PRESET_MODE
  else supported_features.

Open Scope py_scope.

Definition async_set_temperature (self : t) (kwargs : gmap string PyVal) : M unit :=
  let temperature := mapping_get kwargs ATTR_TEMPERATURE in
  if is_none temperature then ret tt
  else handle_call (set_temperature temperature).

Definition async_set_hvac_mode (self : t) (hvac_mode : HVACMode.t) : M unit :=
  if negb (dict_contains hvac_mode HA_TO_HM_HVAC_MODE) then
    logger_warning "Hvac mode %s is not supported by integration"
      [PyStr (HVACMode.value hvac_mode)]
  else
    m <- lift (dict_getitem hvac_mode HA_TO_HM_HVAC_MODE) ;;
    handle_call (set_hvac_mode m).

Definition async_enable_away_mode_by_calendar (self : t) (end_ : datetime.t)
    (away_temperature : float) (start : option datetime.t) : M unit :=
  start <- match start with
           | Some given => ret given
           | None =>
               now <- datetime_now ;;
               lift (datetime_sub now (timedelta.of_minutes 10))
           end ;;
  handle_call (enable_away_mode_by_calendar start end_ away_temperature).

Definition async_enable_away_mode_by_duration (self : t) (hours : Z)
    (away_temperature : float) : M unit :=
  handle_call (enable_away_mode_by_duration hours away_temperature).

Definition async_disable_away_mode (self : t) : M unit :=
  handle_call disable_away_mode.

(** What the adapter takes from the device library besides the handle:
    the marker that starts the value of every custom-profile preset, and
    the values of the members of the library's preset enum. *)
Section Library.
Variable PRESET_MODE_PREFIX : string.
Variable PresetMode_values : list string.

(** [PresetMode(value)]: the member with that value; [ValueError] when
    the enum has none. *)
Definition PresetMode_call (value : string) : result PresetMode.t :=
  if bool_decide (value ∈ PresetMode_values) then Ok (PresetMode.mk value)
  else Raise (ValueError value).

(** The condition is written [A and B or C]; Python reads it as
    [(A and B) or C]. *)
Definition preset_mode (self : t) : PyVal :=
  if (BaseClimateEntity.is_valid (_hm_entity self)
      && bool_decide (PresetMode.value (BaseClimateEntity.preset_mode (_hm_entity self))
                        ∈ SUPPORTED_HA_PRESET_MODES))
     || String.prefix PRESET_MODE_PREFIX
          (PresetMode.str (BaseClimateEntity.preset_mode (_hm_entity self)))
  then PyStr (PresetMode.value (BaseClimateEntity.preset_mode (_hm_entity self)))
  else
    match and_then (is_restored self) (_restored_state self) with
    | Some restored_state => mapping_get (attributes restored_state) ATTR_PRESET_MODE
    | None => PyNone
    end.

(** The body of the loop in [preset_modes]: two independent tests,
    each appending the member's value. *)
Definition preset_modes_body (preset_modes : list string)
    (hm_preset_mode : PresetMode.t) : list string :=
  let preset_modes :=
    if bool_decide (PresetMode.value hm_preset_mode ∈ SUPPORTED_HA_PRESET_MODES)
    then (preset_modes ++ [PresetMode.value hm_preset_mode])%list
    else preset_modes in
  if String.prefix PRESET_MODE_PREFIX (PresetMode.str hm_preset_mode)
  then (preset_modes ++ [PresetMode.value hm_preset_mode])%list
  else preset_modes.

Definition preset_modes (self : t) : list string :=
  foldl preset_modes_body [] (BaseClimateEntity.preset_modes (_hm_entity self)).

Definition async_set_preset_mode (self : t) (preset_mode : string) : M unit :=
  if negb (bool_decide (preset_mode ∈ preset_modes self)) then
    mode <- lift (hvac_mode self) ;;
    logger_warning "Preset mode %s is not supported in hvac_mode %s"
      [PyStr preset_mode; of_str (HVACMode.value <$> mode)]
  else
    p <- lift (PresetMode_call preset_mode) ;;
    handle_call (set_preset_mode p).
End Library.

(** ** Typing invariants of what the adapter is handed *)

(** Every preset the handle reports is a member of the library's enum. *)
Definition presets_are_members (PresetMode_values : list string) (self : t) : Prop :=
  Forall (fun m => PresetMode.value m ∈ PresetMode_values)
    (BaseClimateEntity.preset_modes (_hm_entity self)).

(** The restored snapshot, when there is one, is the state of a climate
    entity: the value of an HVAC mode, or unknown, or unavailable. *)
Definition snapshot_is_climate_state (self : t) : Prop :=
  ∀ s, _restored_state self = Some s →
       state s ∈ [STATE_UNKNOWN; STATE_UNAVAILABLE] ∨
       ∃ m, state s = HVACMode.value m.

(** The test that lets a device-reported preset value through. *)
Definition exposed (PRESET_MODE_PREFIX value : string) : Prop :=
  value ∈ SUPPORTED_HA_PRESET_MODES ∨ String.prefix PRESET_MODE_PREFIX value = true.

(** ** The list of available modes *)

(** One element of the comprehension in [hvac_modes]: the element is kept
    when the table has it, and then translated by subscript, before the
    elements to its right are looked at. *)
Definition hvac_modes_item (hm_hvac_mode : HmHvacMode.t)
    (rest : result (list HVACMode.t)) : result (list HVACMode.t) :=
  if dict_contains hm_hvac_mode HM_TO_HA_HVAC_MODE then
    result_bind (dict_getitem hm_hvac_mode HM_TO_HA_HVAC_MODE)
      (fun m => result_bind rest (fun ms => Ok (m :: ms)))
  else rest.

Definition hvac_modes (self : t) : result (list HVACMode.t) :=
  foldr hvac_modes_item (Ok []) (BaseClimateEntity.hvac_modes (_hm_entity self)).

End HaHomematicClimate.

(** ** Discovery *)



(** ** The footprint of a command *)

(** A command leaves at most one mark: it reads the clock without moving
    it, keeps every earlier call and log record, and adds either nothing,
    or one call on the handle, or one log record. *)
Definition single_mark (w w' : World) : Prop :=
  clock w' = clock w ∧
  ((calls w' = calls w ∧ log w' = log w) ∨
   (∃ c, calls w' = (calls w ++ [c])%list ∧ log w' = log w) ∨
   (∃ r, calls w' = calls w ∧ log w' = (log w ++ [r])%list)).

(** What running a command from [w] may leave behind: one mark at most
    when it returns, nothing at all when it raises. *)
Definition footprint (c : M unit) (w : World) : Prop :=
  match c w with
  | (Ok _, w') => single_mark w w'
  | (Raise _, w') => w' = w
  end.

(** ** Sample instances

    Concrete handles, snapshots and worlds on which the statements below
    are exercised. *)

(** A wall thermostat: target 21.0, measuring 20.5 at 40 %, range 5.0 to
    30.5 in steps of 0.5, reporting the presets "boost", "week_program_1"
    and "party". *)
Definition thermostat (is_valid : bool) (hvac_action : option HmHvacAction.t)
    (hvac_mode : HmHvacMode.t) (preset_mode : string) : BaseClimateEntity.t :=
  BaseClimateEntity.mk is_valid (Some 21%float) (Some 20.5%float) (Some 40)
    hvac_action hvac_mode [HmHvacMode.AUTO; HmHvacMode.HEAT; HmHvacMode.OFF]
    5%float 30.5%float (PresetMode.mk preset_mode)
    [PresetMode.mk "boost"; PresetMode.mk "week_program_1"; PresetMode.mk "party"]
    true 0.5%float.

(** A snapshot taken while the entity was heating towards 19.5 in "eco". *)
Definition heating_snapshot : State :=
  mkState "heat"
    (<[ATTR_TEMPERATURE := PyFloat 19.5%float]>
       (<[ATTR_CURRENT_TEMPERATURE := PyFloat 18%float]>
          (<[ATTR_CURRENT_HUMIDITY := PyInt 55]>
             (<[ATTR_PRESET_MODE := PyStr "eco"]> ∅)))).

Definition ccu : ControlUnit := mkControlUnit "ccu".

(** Midnight of 2024-01-01, nothing called and nothing logged yet. *)
Definition quiet_world : World :=
  mkWorld (datetime.mk (738885 * 86400 * 1000000)) [] [].

(** * Properties *)

(** ** Dictionaries *)

Section DictFacts.
Context {K V : Type} `{EqDecision K}.
Implicit Types (k : K) (v : V) (d : list (K * V)).

Lemma dict_get_set_eq k v d : dict_get k (dict_set k v d) = Some v.
Proof.
  induction d as [|[k' v'] d IH]; simpl.
  - by rewrite decide_True.
  - destruct (decide (k = k')) as [->|Hne]; simpl.
    + by rewrite decide_True.
    + by rewrite decide_False.
Qed.

Lemma dict_get_set_ne k k' v d :
  k ≠ k' → dict_get k' (dict_set k v d) = dict_get k' d.
Proof.
  intros Hne. induction d as [|[k0 v0] d IH]; simpl.
  - by rewrite decide_False.
  - destruct (decide (k = k0)) as [->|Hk]; simpl.
    + by rewrite !decide_False.
    + destruct (decide (k' = k0)); [done | apply IH].
Qed.

Lemma dict_get_Some_elem_of k v d : dict_get k d = Some v → (k, v) ∈ d.
Proof.
  induction d as [|[k' v'] d IH]; simpl; [done|].
  destruct (decide (k = k')) as [->|Hne].
  - intros [= ->]. left.
  - intros Hget. right. by apply IH.
Qed.

Lemma dict_contains_true k d : dict_contains k d = true ↔ is_Some (dict_get k d).
Proof.
  unfold dict_contains. destruct (dict_get k d) as [v|]; split.
  - by eexists.
  - done.
  - done.
  - by intros [v Hv].
Qed.

Lemma dict_contains_false k d : dict_contains k d = false ↔ dict_get k d = None.
Proof. unfold dict_contains. by destruct (dict_get k d). Qed.
End DictFacts.

Section DictInverse.
Context {K V : Type} `{EqDecision V}.
Implicit Types (d : list (K * V)) (acc : list (V * K)).

(** A value that no remaining item carries keeps the entry it has. *)
Lemma dict_inverse_frame d acc v :
  v ∉ d.*2 → dict_get v (foldl dict_flip_into acc d) = dict_get v acc.
Proof.
  revert acc. induction d as [|[k0 v0] d IH]; intros acc Hnotin; simpl; [done|].
  rewrite fmap_cons in Hnotin. apply not_elem_of_cons in Hnotin as [Hne Hnotin].
  rewrite IH by done. simpl. by apply dict_get_set_ne.
Qed.

(** When no two items share a value, every item is found under its value. *)
Lemma dict_inverse_lookup d acc k v :
  NoDup d.*2 → (k, v) ∈ d → dict_get v (foldl dict_flip_into acc d) = Some k.
Proof.
  revert acc. induction d as [|[k0 v0] d IH]; intros acc Hnodup Hin.
  - by apply elem_of_nil in Hin.
  - rewrite fmap_cons in Hnodup. apply NoDup_cons in Hnodup as [Hfresh Hnodup].
    simpl. apply elem_of_cons in Hin as [[= -> ->]|Hin].
    + rewrite dict_inverse_frame by done. apply dict_get_set_eq.
    + by apply IH.
Qed.
End DictInverse.

(** The inverse of an injective dictionary undoes it. *)
Lemma dict_inverse_round_trip {K V : Type} `{EqDecision K} `{EqDecision V}
    (d : list (K * V)) (k : K) (v : V) :
  NoDup d.*2 → dict_get k d = Some v → dict_get v (dict_inverse d) = Some k.
Proof.
  intros Hnodup Hget. unfold dict_inverse, dict_items.
  apply dict_inverse_lookup; [done|]. by apply dict_get_Some_elem_of.
Qed.

Lemma HM_TO_HA_HVAC_MODE_injective : NoDup HM_TO_HA_HVAC_MODE.*2.
Proof. apply (bool_decide_unpack _). vm_compute. exact I. Qed.

(** The inverted table, spelled out. *)
Lemma HA_TO_HM_HVAC_MODE_items :
  HA_TO_HM_HVAC_MODE =
  [ (HVACMode.AUTO, HmHvacMode.AUTO); (HVACMode.COOL, HmHvacMode.COOL);
    (HVACMode.HEAT, HmHvacMode.HEAT); (HVACMode.OFF, HmHvacMode.OFF) ].
Proof. reflexivity. Qed.

(** ** Mode translation *)

(** C2. Every device-library HVAC mode that has an entry in
    [HM_TO_HA_HVAC_MODE] comes back unchanged when it is translated to the
    platform mode and then through [HA_TO_HM_HVAC_MODE]. *)
Theorem hvac_mode_round_trip (hm_mode : HmHvacMode.t) (ha_mode : HVACMode.t) :
  dict_getitem hm_mode HM_TO_HA_HVAC_MODE = Ok ha_mode →
  dict_getitem ha_mode HA_TO_HM_HVAC_MODE = Ok hm_mode.
Proof.
  unfold dict_getitem. intros Hto.
  destruct (dict_get hm_mode HM_TO_HA_HVAC_MODE) as [m|] eqn:Hget; [|done].
  injection Hto as ->.
  unfold HA_TO_HM_HVAC_MODE.
  by rewrite (dict_inverse_round_trip _ _ _ HM_TO_HA_HVAC_MODE_injective Hget).
Qed.

Lemma hvac_mode_round_trip_witness :
  dict_getitem HmHvacMode.HEAT HM_TO_HA_HVAC_MODE = Ok HVACMode.HEAT ∧
  dict_getitem HVACMode.HEAT HA_TO_HM_HVAC_MODE = Ok HmHvacMode.HEAT.
Proof.
  split; [reflexivity|].
  apply (hvac_mode_round_trip HmHvacMode.HEAT HVACMode.HEAT). reflexivity.
Defined.

Import HaHomematicClimate.

(** C3. A platform HVAC mode without an entry in [HA_TO_HM_HVAC_MODE] is
    answered with one warning and no call on the handle; a mode with an
    entry is answered with exactly one [set_hvac_mode] call that carries the
    mapped device-library mode. *)
Theorem async_set_hvac_mode_guard (self : HaHomematicClimate.t)
    (hvac_mode : HVACMode.t) (w : World) :
  (dict_contains hvac_mode HA_TO_HM_HVAC_MODE = false →
   async_set_hvac_mode self hvac_mode w =
     (Ok tt,
      with_record w
        (warning "Hvac mode %s is not supported by integration"
           [PyStr (HVACMode.value hvac_mode)])) ∧
   calls (snd (async_set_hvac_mode self hvac_mode w)) = calls w) ∧
  (∀ hm_mode, dict_get hvac_mode HA_TO_HM_HVAC_MODE = Some hm_mode →
   async_set_hvac_mode self hvac_mode w =
     (Ok tt, with_call w (set_hvac_mode hm_mode))).
Proof.
  unfold async_set_hvac_mode. split.
  - intros Hno. rewrite Hno. simpl. done.
  - intros hm_mode Hget.
    unfold dict_contains, dict_getitem, bind, lift, handle_call.
    by rewrite Hget.
Qed.

Lemma async_set_hvac_mode_guard_witness :
  calls (snd (async_set_hvac_mode
                (__init__ ccu (thermostat true None HmHvacMode.HEAT "none"))
                HVACMode.DRY quiet_world)) = [] ∧
  log (snd (async_set_hvac_mode
              (__init__ ccu (thermostat true None HmHvacMode.HEAT "none"))
              HVACMode.DRY quiet_world)) =
    [warning "Hvac mode %s is not supported by integration" [PyStr "dry"]] ∧
  async_set_hvac_mode (__init__ ccu (thermostat true None HmHvacMode.HEAT "none"))
    HVACMode.HEAT quiet_world =
    (Ok tt, with_call quiet_world (set_hvac_mode HmHvacMode.HEAT)).
Proof.
  pose proof (async_set_hvac_mode_guard
                (__init__ ccu (thermostat true None HmHvacMode.HEAT "none"))
                HVACMode.DRY quiet_world) as [Hdry _].
  pose proof (async_set_hvac_mode_guard
                (__init__ ccu (thermostat true None HmHvacMode.HEAT "none"))
                HVACMode.HEAT quiet_world) as [_ Hheat].
  split; [|split].
  - apply Hdry. reflexivity.
  - destruct (Hdry eq_refl) as [-> _]. reflexivity.
  - apply (Hheat HmHvacMode.HEAT). reflexivity.
Defined.

(** C5. While the handle is valid, a current device mode without an entry
    in [HM_TO_HA_HVAC_MODE] reads as the platform mode OFF. *)
Theorem hvac_mode_unmapped_is_off (self : HaHomematicClimate.t) :
  BaseClimateEntity.is_valid (_hm_entity self) = true →
  dict_contains (BaseClimateEntity.hvac_mode (_hm_entity self)) HM_TO_HA_HVAC_MODE = false →
  hvac_mode self = Ok (Some HVACMode.OFF).
Proof.
  intros Hvalid Hunmapped. unfold hvac_mode. by rewrite Hvalid, Hunmapped.
Qed.

Lemma hvac_mode_unmapped_is_off_witness :
  hvac_mode (__init__ ccu (thermostat true None (HmHvacMode.other "manu") "none"))
  = Ok (Some HVACMode.OFF).
Proof.
  apply hvac_mode_unmapped_is_off; reflexivity.
Defined.

(** While the handle is valid, the mode read is the table's entry or OFF:
    never a device-library value. *)
Lemma hvac_mode_valid (self : HaHomematicClimate.t) :
  BaseClimateEntity.is_valid (_hm_entity self) = true →
  hvac_mode self =
    Ok (Some (default HVACMode.OFF
                (dict_get (BaseClimateEntity.hvac_mode (_hm_entity self))
                   HM_TO_HA_HVAC_MODE))).
Proof.
  intros Hvalid. unfold hvac_mode, dict_contains, dict_getitem. rewrite Hvalid.
  by destruct (dict_get _ HM_TO_HA_HVAC_MODE).
Qed.

(** C10. The feature set always holds TARGET_TEMPERATURE, TURN_OFF and
    TURN_ON, and holds PRESET_MODE exactly when the handle reports
    [supports_preset]. *)
Theorem supported_features_content (self : HaHomematicClimate.t) :
  ClimateEntityFeature.contains (supported_features self)
    ClimateEntityFeature.TARGET_TEMPERATURE = true ∧
  ClimateEntityFeature.contains (supported_features self)
    ClimateEntityFeature.TURN_OFF = true ∧
  ClimateEntityFeature.contains (supported_features self)
    ClimateEntityFeature.TURN_ON = true ∧
  ClimateEntityFeature.contains (supported_features self)
    ClimateEntityFeature.PRESET_MODE
  = BaseClimateEntity.supports_preset (_hm_entity self).
Proof.
  unfold supported_features.
  destruct (BaseClimateEntity.supports_preset (_hm_entity self)); by vm_compute.
Qed.

(** ** HVAC action *)

(** C6, as the code has it.  The action read is decided by the handle's
    live action alone: the mapped platform action when the live action is
    set and has an entry in [HM_TO_HA_ACTION], absent otherwise.  Neither
    the restored snapshot nor the handle's validity takes part, so an
    invalid handle that still reports a mapped action reads as that action. *)
Theorem hvac_action_live_only (self : HaHomematicClimate.t) :
  hvac_action self =
    Ok (match BaseClimateEntity.hvac_action (_hm_entity self) with
        | Some action => dict_get action HM_TO_HA_ACTION
        | None => None
        end) ∧
  (∀ snapshot, hvac_action (restored self snapshot) = hvac_action self).
Proof.
  split; [|done].
  unfold hvac_action.
  destruct (BaseClimateEntity.hvac_action (_hm_entity self)) as [action|]; [|done].
  destruct action as [| | | |v]; try reflexivity.
  by rewrite andb_false_r.
Qed.

(** C6, as stated, fails: an invalid handle whose live action is HEAT does
    not read as absent. *)
Lemma hvac_action_invalid_handle_not_absent :
  ¬ (∀ self : HaHomematicClimate.t,
       BaseClimateEntity.is_valid (_hm_entity self) = false →
       hvac_action self = Ok None).
Proof.
  intros Hclaim.
  specialize (Hclaim (restored
    (__init__ ccu (thermostat false (Some HmHvacAction.HEAT) HmHvacMode.HEAT "none"))
    (Some heating_snapshot)) eq_refl).
  discriminate Hclaim.
Qed.

(** ** Commands *)

(** C8. Without a temperature among the keyword arguments the command
    returns and leaves the world as it found it; with one, it makes exactly
    one [set_temperature] call that carries the value. *)
Theorem async_set_temperature_guard (self : HaHomematicClimate.t)
    (kwargs : gmap string PyVal) (w : World) :
  (kwargs !! ATTR_TEMPERATURE = None ∨ kwargs !! ATTR_TEMPERATURE = Some PyNone →
   async_set_temperature self kwargs w = (Ok tt, w)) ∧
  (∀ temperature,
     kwargs !! ATTR_TEMPERATURE = Some temperature → temperature ≠ PyNone →
     async_set_temperature self kwargs w =
       (Ok tt, with_call w (set_temperature temperature))).
Proof.
  unfold async_set_temperature, mapping_get. split.
  - by intros [-> | ->].
  - intros temperature -> Hsome. simpl. by destruct temperature.
Qed.

Lemma async_set_temperature_guard_witness :
  async_set_temperature (__init__ ccu (thermostat true None HmHvacMode.HEAT "none"))
    (<["hvac_mode" := PyStr "heat"]> ∅) quiet_world = (Ok tt, quiet_world) ∧
  async_set_temperature (__init__ ccu (thermostat true None HmHvacMode.HEAT "none"))
    (<[ATTR_TEMPERATURE := PyFloat 22.5%float]> ∅) quiet_world =
    (Ok tt, with_call quiet_world (set_temperature (PyFloat 22.5%float))).
Proof.
  split.
  - apply (async_set_temperature_guard _ (<["hvac_mode" := PyStr "heat"]> ∅)).
    left. reflexivity.
  - apply (async_set_temperature_guard _ (<[ATTR_TEMPERATURE := PyFloat 22.5%float]> ∅)).
    + reflexivity.
    + discriminate.
Defined.

(** Ten minutes, in microseconds. *)
Lemma ten_minutes : timedelta.micros (timedelta.of_minutes 10) = 600000000.
Proof. reflexivity. Qed.

(** C7. A given start time is forwarded as it is.  Without one, and with a
    clock that reads a time from which ten minutes can be taken, the start
    is the clock's reading minus ten minutes.  Either way the handle
    receives exactly one [enable_away_mode_by_calendar] call, with that
    start, the given end and the given away temperature. *)
Theorem async_enable_away_mode_by_calendar_start (self : HaHomematicClimate.t)
    (end_ : datetime.t) (away_temperature : float) (w : World) :
  (∀ start,
     async_enable_away_mode_by_calendar self end_ away_temperature (Some start) w =
       (Ok tt, with_call w (enable_away_mode_by_calendar start end_ away_temperature))) ∧
  (600000000 ≤ datetime.micros (clock w) ≤ datetime.MAX_MICROS →
   async_enable_away_mode_by_calendar self end_ away_temperature None w =
     (Ok tt,
      with_call w
        (enable_away_mode_by_calendar
           (datetime.mk (datetime.micros (clock w) - 600000000))
           end_ away_temperature))).
Proof.
  split; [done|].
  intros [Hlo Hhi].
  unfold async_enable_away_mode_by_calendar, bind, datetime_now, lift, datetime_sub.
  rewrite ten_minutes.
  assert (datetime.in_range (datetime.micros (clock w) - 600000000) = true) as ->;
    [|done].
  unfold datetime.in_range. apply andb_true_intro. split; lia.
Qed.

Lemma async_enable_away_mode_by_calendar_start_witness :
  async_enable_away_mode_by_calendar
    (__init__ ccu (thermostat true None HmHvacMode.HEAT "none"))
    (datetime.mk (738899 * 86400 * 1000000)) 17%float None quiet_world =
  (Ok tt,
   with_call quiet_world
     (enable_away_mode_by_calendar
        (datetime.mk (738885 * 86400 * 1000000 - 600000000))
        (datetime.mk (738899 * 86400 * 1000000)) 17%float)).
Proof.
  apply (async_enable_away_mode_by_calendar_start
           (__init__ ccu (thermostat true None HmHvacMode.HEAT "none"))
           (datetime.mk (738899 * 86400 * 1000000)) 17%float quiet_world).
  vm_compute. split; discriminate.
Defined.

(** ** Temperature range and step *)

(** C9, as the code has it.  However the handle's range attributes change
    after the adapter was built, [min_temp] and [max_temp] read the
    handle's current values; the step reads the value the handle had when
    the adapter was built.  A restored snapshot changes none of the three. *)
Theorem range_read_live_step_read_once (control_unit : ControlUnit)
    (hm_entity : BaseClimateEntity.t) (snapshot : option State)
    (changes : list BaseClimateEntity.change) :
  let self := restored (__init__ control_unit hm_entity) snapshot in
  let now := foldl BaseClimateEntity.apply hm_entity changes in
  min_temp (observing self now) = BaseClimateEntity.min_temp now ∧
  max_temp (observing self now) = BaseClimateEntity.max_temp now ∧
  target_temperature_step (observing self now) =
    BaseClimateEntity.target_temperature_step hm_entity.
Proof. done. Qed.

(** C9, as stated, fails for the step: once the handle moves from 0.5 to
    1.0 the adapter still answers 0.5. *)
Lemma target_temperature_step_not_live :
  ¬ (∀ (hm_entity : BaseClimateEntity.t) (changes : list BaseClimateEntity.change),
       target_temperature_step
         (observing (__init__ ccu hm_entity)
            (foldl BaseClimateEntity.apply hm_entity changes))
       = BaseClimateEntity.target_temperature_step
           (foldl BaseClimateEntity.apply hm_entity changes)).
Proof.
  intros Hclaim.
  specialize (Hclaim (thermostat true None HmHvacMode.HEAT "none")
                [BaseClimateEntity.change_target_temperature_step 1%float]).
  apply (f_equal (fun step => PrimFloat.eqb step 0.5%float)) in Hclaim.
  vm_compute in Hclaim. discriminate Hclaim.
Qed.

(** ** Preset modes *)

Section PresetModes.
Variable PRESET_MODE_PREFIX : string.
Variable PresetMode_values : list string.

(** One turn of the loop adds the member's value when it is exposed,
    and nothing else. *)
Lemma preset_modes_body_elem_of (acc : list string) (m : PresetMode.t) (v : string) :
  v ∈ preset_modes_body PRESET_MODE_PREFIX acc m ↔
  v ∈ acc ∨ (PresetMode.value m = v ∧ exposed PRESET_MODE_PREFIX v).
Proof.
  unfold preset_modes_body, exposed, PresetMode.str.
  case_bool_decide as Hsup;
    destruct (String.prefix PRESET_MODE_PREFIX (PresetMode.value m)) eqn:Hpre;
    rewrite ?elem_of_app, ?list_elem_of_singleton.
  - split; [intros [[? | ->] | ->]; auto | intros [? | [<- _]]; auto].
  - split; [intros [? | ->]; auto | intros [? | [<- _]]; auto].
  - split; [intros [? | ->]; auto | intros [? | [<- _]]; auto].
  - split; [auto | intros [? | [<- [? | ?]]]; [done | contradiction | congruence]].
Qed.

(** What the loop of [preset_modes] has collected after any number of
    turns: what it started with, and the exposed values it met. *)
Lemma preset_modes_loop (l : list PresetMode.t) (acc : list string) (v : string) :
  v ∈ foldl (preset_modes_body PRESET_MODE_PREFIX) acc l ↔
  v ∈ acc ∨ ∃ m, m ∈ l ∧ PresetMode.value m = v ∧ exposed PRESET_MODE_PREFIX v.
Proof.
  revert acc. induction l as [|m l IH]; intros acc; simpl.
  - split; [by left|]. intros [Hacc|(m & Hm & _)]; [done|].
    by apply elem_of_nil in Hm.
  - rewrite IH, preset_modes_body_elem_of. split.
    + intros [[Hacc|[Hv Hexp]]|(m' & Hm' & Hv & Hexp)].
      * by left.
      * right. exists m. split; [apply elem_of_cons; by left | done].
      * right. exists m'. split; [apply elem_of_cons; by right | done].
    + intros [Hacc|(m' & Hm' & Hv & Hexp)].
      * left. by left.
      * apply elem_of_cons in Hm' as [->|Hm'].
        -- left. by right.
        -- right. by exists m'.
Qed.

(** The exposed list holds exactly the exposed values among the presets
    the handle reports. *)
Lemma preset_modes_elem_of (self : HaHomematicClimate.t) (v : string) :
  v ∈ preset_modes PRESET_MODE_PREFIX self ↔
  ∃ m, m ∈ BaseClimateEntity.preset_modes (_hm_entity self) ∧
       PresetMode.value m = v ∧ exposed PRESET_MODE_PREFIX v.
Proof.
  unfold preset_modes. rewrite preset_modes_loop. split; [|by right].
  intros [Hnil|Hex]; [|done]. by apply elem_of_nil in Hnil.
Qed.

(** An exposed value names a member of the library's enum. *)
Lemma PresetMode_call_exposed (self : HaHomematicClimate.t) (v : string) :
  presets_are_members PresetMode_values self →
  v ∈ preset_modes PRESET_MODE_PREFIX self →
  PresetMode_call PresetMode_values v = Ok (PresetMode.mk v).
Proof.
  intros Hmembers Hin. apply preset_modes_elem_of in Hin as (m & Hm & <- & _).
  unfold PresetMode_call. rewrite bool_decide_eq_true_2; [done|].
  unfold presets_are_members in Hmembers. rewrite Forall_forall in Hmembers.
  by apply Hmembers.
Qed.
End PresetModes.

(** [HVACMode(value=...)] finds every member under its own value. *)
Lemma HVACMode_call_value (m : HVACMode.t) : HVACMode.call (HVACMode.value m) = Ok m.
Proof. by destruct m. Qed.

(** The mode can be read whenever the handle is valid or the snapshot is
    the state of a climate entity. *)
Lemma hvac_mode_readable (self : HaHomematicClimate.t) :
  BaseClimateEntity.is_valid (_hm_entity self) = true ∨ snapshot_is_climate_state self →
  ∃ mode, hvac_mode self = Ok mode.
Proof.
  intros Hok.
  destruct (BaseClimateEntity.is_valid (_hm_entity self)) eqn:Hvalid.
  - eexists. by apply hvac_mode_valid.
  - destruct Hok as [?|Hsnapshot]; [done|].
    unfold hvac_mode. rewrite Hvalid. unfold and_then.
    destruct (is_restored self); [|by eexists].
    destruct (_restored_state self) as [s|] eqn:Hs; [|by eexists].
    simpl. case_bool_decide as Hknown; simpl; [by eexists|].
    destruct (Hsnapshot s Hs) as [?|[m ->]]; [done|].
    rewrite HVACMode_call_value. by eexists.
Qed.

(** C4, as the code has it.  The exposed preset list holds exactly the
    values of the presets the handle reports that are in the allow-list
    (away, boost, comfort, eco, none) or start with the custom-profile
    prefix.  A requested preset outside that list never reaches the handle.
    It is answered with one warning, for the text of which the adapter
    reads its own HVAC mode, whenever that read succeeds: the handle is
    valid, or the restored snapshot is the state of a climate entity.  A
    preset inside the list is forwarded in exactly one [set_preset_mode]
    call. *)
Theorem preset_mode_filter_and_guard (PRESET_MODE_PREFIX : string)
    (PresetMode_values : list string) (self : HaHomematicClimate.t)
    (requested : string) (w : World) :
  (∀ v, v ∈ preset_modes PRESET_MODE_PREFIX self ↔
        ∃ m, m ∈ BaseClimateEntity.preset_modes (_hm_entity self) ∧
             PresetMode.value m = v ∧
             (v ∈ SUPPORTED_HA_PRESET_MODES ∨
              String.prefix PRESET_MODE_PREFIX v = true)) ∧
  (requested ∉ preset_modes PRESET_MODE_PREFIX self →
   calls (snd (async_set_preset_mode PRESET_MODE_PREFIX PresetMode_values
                 self requested w)) = calls w ∧
   (BaseClimateEntity.is_valid (_hm_entity self) = true ∨
    snapshot_is_climate_state self →
    ∃ mode,
      hvac_mode self = Ok mode ∧
      async_set_preset_mode PRESET_MODE_PREFIX PresetMode_values self requested w =
        (Ok tt,
         with_record w
           (warning "Preset mode %s is not supported in hvac_mode %s"
              [PyStr requested; of_str (HVACMode.value <$> mode)])))) ∧
  (requested ∈ preset_modes PRESET_MODE_PREFIX self →
   presets_are_members PresetMode_values self →
   async_set_preset_mode PRESET_MODE_PREFIX PresetMode_values self requested w =
     (Ok tt, with_call w (set_preset_mode (PresetMode.mk requested)))).
Proof.
  split; [|split].
  - intros v. apply preset_modes_elem_of.
  - intros Hout. unfold async_set_preset_mode, bind, lift, logger_warning.
    rewrite bool_decide_eq_false_2 by done. simpl. split.
    + by destruct (hvac_mode self).
    + intros Hok. destruct (hvac_mode_readable self Hok) as [mode Hmode].
      exists mode. by rewrite Hmode.
  - intros Hin Hmembers. unfold async_set_preset_mode, bind, lift, handle_call.
    rewrite bool_decide_eq_true_2 by done. simpl.
    by rewrite (PresetMode_call_exposed _ _ self requested Hmembers Hin).
Qed.

Lemma preset_mode_filter_and_guard_witness :
  async_set_preset_mode "week_program_"
    ["away"; "boost"; "comfort"; "eco"; "none"; "party"; "week_program_1"]
    (restored (__init__ ccu (thermostat false None HmHvacMode.HEAT "boost"))
       (Some heating_snapshot))
    "party" quiet_world =
    (Ok tt,
     with_record quiet_world
       (warning "Preset mode %s is not supported in hvac_mode %s"
          [PyStr "party"; PyStr "heat"])) ∧
  async_set_preset_mode "week_program_"
    ["away"; "boost"; "comfort"; "eco"; "none"; "party"; "week_program_1"]
    (restored (__init__ ccu (thermostat false None HmHvacMode.HEAT "boost"))
       (Some heating_snapshot))
    "week_program_1" quiet_world =
    (Ok tt, with_call quiet_world (set_preset_mode (PresetMode.mk "week_program_1"))).
Proof.
  split.
  - destruct (preset_mode_filter_and_guard "week_program_"
                ["away"; "boost"; "comfort"; "eco"; "none"; "party"; "week_program_1"]
                (restored (__init__ ccu (thermostat false None HmHvacMode.HEAT "boost"))
                   (Some heating_snapshot))
                "party" quiet_world) as (_ & Hout & _).
    destruct Hout as [_ Hwarn].
    + apply (bool_decide_unpack _). vm_compute. exact I.
    + destruct Hwarn as (mode & Hmode & Hrun).
      * right. intros s [= <-]. right. exists HVACMode.HEAT. reflexivity.
      * injection Hmode as <-. exact Hrun.
  - destruct (preset_mode_filter_and_guard "week_program_"
                ["away"; "boost"; "comfort"; "eco"; "none"; "party"; "week_program_1"]
                (restored (__init__ ccu (thermostat false None HmHvacMode.HEAT "boost"))
                   (Some heating_snapshot))
                "week_program_1" quiet_world) as (_ & _ & Hin).
    apply Hin; apply (bool_decide_unpack _); vm_compute; exact I.
Defined.

(** C4, as stated, fails: with an invalid handle and a restored state "on",
    which is no HVAC mode, the request for the hidden preset "party" is not
    answered with a warning.  Reading the HVAC mode for the text of the
    warning raises [ValueError]; nothing is logged and the handle is not
    called. *)
Lemma preset_mode_warning_needs_readable_mode :
  BaseClimateEntity.is_valid
    (thermostat false None HmHvacMode.HEAT "boost") = false ∧
  ("party" ∉ preset_modes "week_program_"
     (restored (__init__ ccu (thermostat false None HmHvacMode.HEAT "boost"))
        (Some (mkState "on" ∅)))) ∧
  async_set_preset_mode "week_program_"
    ["away"; "boost"; "comfort"; "eco"; "none"; "party"; "week_program_1"]
    (restored (__init__ ccu (thermostat false None HmHvacMode.HEAT "boost"))
       (Some (mkState "on" ∅)))
    "party" quiet_world =
    (Raise (ValueError "on"), quiet_world).
Proof.
  split; [reflexivity|]. split; [|reflexivity].
  apply (bool_decide_unpack _). vm_compute. exact I.
Qed.

(** ** Restore fallback *)

(** With an invalid handle and a snapshot in a known state, the two
    temperatures and the humidity read as the snapshot's attributes. *)
Lemma readings_fall_back_to_snapshot (self : HaHomematicClimate.t) (s : State) :
  BaseClimateEntity.is_valid (_hm_entity self) = false →
  _restored_state self = Some s →
  state s ∉ [STATE_UNKNOWN; STATE_UNAVAILABLE] →
  target_temperature self = mapping_get (attributes s) ATTR_TEMPERATURE ∧
  current_temperature self = mapping_get (attributes s) ATTR_CURRENT_TEMPERATURE ∧
  current_humidity self = mapping_get (attributes s) ATTR_CURRENT_HUMIDITY.
Proof.
  intros Hinvalid Hs Hknown.
  unfold target_temperature, current_temperature, current_humidity, is_restored.
  rewrite Hinvalid, Hs. by rewrite bool_decide_eq_false_2.
Qed.

(** With an invalid handle and no snapshot they read as absent. *)
Lemma readings_absent_without_snapshot (self : HaHomematicClimate.t) :
  BaseClimateEntity.is_valid (_hm_entity self) = false →
  _restored_state self = None →
  target_temperature self = PyNone ∧
  current_temperature self = PyNone ∧
  current_humidity self = PyNone.
Proof.
  intros Hinvalid Hs.
  unfold target_temperature, current_temperature, current_humidity, is_restored.
  by rewrite Hinvalid, Hs.
Qed.

(** Under the same conditions the mode read is the snapshot's state. *)
Lemma hvac_mode_falls_back_to_snapshot (self : HaHomematicClimate.t) (s : State) :
  BaseClimateEntity.is_valid (_hm_entity self) = false →
  _restored_state self = Some s →
  state s ∉ [STATE_UNKNOWN; STATE_UNAVAILABLE] →
  hvac_mode self = result_bind (HVACMode.call (state s)) (fun m => Ok (Some m)).
Proof.
  intros Hinvalid Hs Hknown. unfold hvac_mode, is_restored.
  rewrite Hinvalid, Hs. rewrite bool_decide_eq_false_2 by done. simpl.
  by rewrite bool_decide_eq_false_2.
Qed.

(** The preset read falls back in the same way as long as the handle's
    live preset does not carry the custom-profile prefix. *)
Lemma preset_mode_falls_back_to_snapshot (PRESET_MODE_PREFIX : string)
    (self : HaHomematicClimate.t) (s : State) :
  BaseClimateEntity.is_valid (_hm_entity self) = false →
  String.prefix PRESET_MODE_PREFIX
    (PresetMode.value (BaseClimateEntity.preset_mode (_hm_entity self))) = false →
  _restored_state self = Some s →
  state s ∉ [STATE_UNKNOWN; STATE_UNAVAILABLE] →
  preset_mode PRESET_MODE_PREFIX self = mapping_get (attributes s) ATTR_PRESET_MODE.
Proof.
  intros Hinvalid Hplain Hs Hknown. unfold preset_mode, PresetMode.str, is_restored.
  rewrite Hinvalid, Hplain, Hs. simpl. by rewrite bool_decide_eq_false_2.
Qed.

(** A live preset that carries the prefix is returned whatever the
    handle's validity: in [A and B or C] the validity test [A] guards only
    the allow-list test [B]. *)
Lemma preset_mode_profile_unguarded (PRESET_MODE_PREFIX : string)
    (self : HaHomematicClimate.t) :
  String.prefix PRESET_MODE_PREFIX
    (PresetMode.value (BaseClimateEntity.preset_mode (_hm_entity self))) = true →
  preset_mode PRESET_MODE_PREFIX self =
    PyStr (PresetMode.value (BaseClimateEntity.preset_mode (_hm_entity self))).
Proof.
  intros Hprofile. unfold preset_mode, PresetMode.str.
  by rewrite Hprofile, orb_true_r.
Qed.

(** C1, at the input where the code departs from it.  The handle is
    invalid and the snapshot is in the known state "heat" with preset
    "eco", so the three readings come from the snapshot; the preset read,
    however, is the handle's live "week_program_1".  Without a snapshot the
    readings are absent and the preset read is still "week_program_1". *)
Theorem preset_mode_escapes_restore_fallback :
  BaseClimateEntity.is_valid
    (thermostat false None HmHvacMode.HEAT "week_program_1") = false ∧
  (state heating_snapshot ∉ [STATE_UNKNOWN; STATE_UNAVAILABLE]) ∧
  target_temperature
    (restored (__init__ ccu (thermostat false None HmHvacMode.HEAT "week_program_1"))
       (Some heating_snapshot)) = PyFloat 19.5%float ∧
  mapping_get (attributes heating_snapshot) ATTR_PRESET_MODE = PyStr "eco" ∧
  preset_mode "week_program_"
    (restored (__init__ ccu (thermostat false None HmHvacMode.HEAT "week_program_1"))
       (Some heating_snapshot)) = PyStr "week_program_1" ∧
  target_temperature
    (__init__ ccu (thermostat false None HmHvacMode.HEAT "week_program_1")) = PyNone ∧
  preset_mode "week_program_"
    (__init__ ccu (thermostat false None HmHvacMode.HEAT "week_program_1"))
    = PyStr "week_program_1".
Proof.
  repeat split; try reflexivity.
  apply (bool_decide_unpack _). vm_compute. exact I.
Qed.

(** * Further properties of the adapter *)

(** ** The list of available modes *)

(** The comprehension of [hvac_modes] over any list of device modes. *)
Lemma hvac_modes_comprehension (l : list HmHvacMode.t) :
  foldr hvac_modes_item (Ok []) l =
  Ok (omap (fun hm => dict_get hm HM_TO_HA_HVAC_MODE) l).
Proof.
  unfold hvac_modes_item, dict_contains, dict_getitem.
  generalize HM_TO_HA_HVAC_MODE as table. intros table.
  induction l as [|hm l IH]; [done|].
  simpl. rewrite IH. by destruct (dict_get hm table).
Qed.

(** The other direction of the round trip between the two tables. *)
Lemma hvac_mode_round_trip_back (ha_mode : HVACMode.t) (hm_mode : HmHvacMode.t) :
  dict_get ha_mode HA_TO_HM_HVAC_MODE = Some hm_mode →
  dict_get hm_mode HM_TO_HA_HVAC_MODE = Some ha_mode.
Proof.
  rewrite HA_TO_HM_HVAC_MODE_items.
  destruct ha_mode; simpl; intros [= <-]; reflexivity.
Qed.

(** A platform mode with a table entry is forwarded. *)
Lemma async_set_hvac_mode_mapped (self : HaHomematicClimate.t)
    (ha_mode : HVACMode.t) (hm_mode : HmHvacMode.t) (w : World) :
  dict_get ha_mode HA_TO_HM_HVAC_MODE = Some hm_mode →
  async_set_hvac_mode self ha_mode w = (Ok tt, with_call w (set_hvac_mode hm_mode)).
Proof.
  intros Hget.
  unfold async_set_hvac_mode, dict_contains, dict_getitem, bind, lift, handle_call.
  by rewrite Hget.
Qed.

(** X1. [hvac_modes] never raises: it lists, in the handle's order and
    with the handle's repetitions, the platform modes of those device modes
    that have an entry in [HM_TO_HA_HVAC_MODE], and leaves the others out. *)
Theorem hvac_modes_translation (self : HaHomematicClimate.t) :
  hvac_modes self =
  Ok (omap (fun hm => dict_get hm HM_TO_HA_HVAC_MODE)
        (BaseClimateEntity.hvac_modes (_hm_entity self))).
Proof. apply hvac_modes_comprehension. Qed.

(** X2. Every mode that [hvac_modes] offers can be set: asking for it
    is answered with exactly one [set_hvac_mode] call, and the call carries
    a device mode that the handle itself lists and that translates to the
    mode asked for. *)
Theorem hvac_modes_settable (self : HaHomematicClimate.t)
    (ms : list HVACMode.t) (m : HVACMode.t) (w : World) :
  hvac_modes self = Ok ms →
  m ∈ ms →
  ∃ hm, hm ∈ BaseClimateEntity.hvac_modes (_hm_entity self) ∧
        dict_get hm HM_TO_HA_HVAC_MODE = Some m ∧
        async_set_hvac_mode self m w = (Ok tt, with_call w (set_hvac_mode hm)).
Proof.
  unfold hvac_modes. rewrite hvac_modes_comprehension. intros [= <-] Hin.
  apply list_elem_of_omap in Hin as (hm & Hhm & Hget).
  exists hm. split; [done|]. split; [done|].
  apply async_set_hvac_mode_mapped.
  by apply (dict_inverse_round_trip _ _ _ HM_TO_HA_HVAC_MODE_injective).
Qed.

Lemma hvac_modes_settable_witness :
  ∃ hm, hm ∈ BaseClimateEntity.hvac_modes
               (_hm_entity (__init__ ccu (thermostat true None HmHvacMode.HEAT "none"))) ∧
        dict_get hm HM_TO_HA_HVAC_MODE = Some HVACMode.AUTO ∧
        async_set_hvac_mode (__init__ ccu (thermostat true None HmHvacMode.HEAT "none"))
          HVACMode.AUTO quiet_world =
          (Ok tt, with_call quiet_world (set_hvac_mode hm)).
Proof.
  apply (hvac_modes_settable
           (__init__ ccu (thermostat true None HmHvacMode.HEAT "none"))
           [HVACMode.AUTO; HVACMode.HEAT; HVACMode.OFF]).
  - reflexivity.
  - apply (bool_decide_unpack _). vm_compute. exact I.
Defined.

(** X3. While the handle is valid and its current mode is one it lists
    and the table knows, the mode read is among the modes offered. *)
Theorem hvac_mode_among_hvac_modes (self : HaHomematicClimate.t) (m : HVACMode.t) :
  BaseClimateEntity.is_valid (_hm_entity self) = true →
  BaseClimateEntity.hvac_mode (_hm_entity self)
    ∈ BaseClimateEntity.hvac_modes (_hm_entity self) →
  dict_get (BaseClimateEntity.hvac_mode (_hm_entity self)) HM_TO_HA_HVAC_MODE = Some m →
  hvac_mode self = Ok (Some m) ∧
  ∃ ms, hvac_modes self = Ok ms ∧ m ∈ ms.
Proof.
  intros Hvalid Hlisted Hget. split.
  - rewrite (hvac_mode_valid self Hvalid). by rewrite Hget.
  - eexists. split; [apply hvac_modes_comprehension|].
    apply list_elem_of_omap. eauto.
Qed.

Lemma hvac_mode_among_hvac_modes_witness :
  hvac_mode (__init__ ccu (thermostat true None HmHvacMode.HEAT "none"))
    = Ok (Some HVACMode.HEAT) ∧
  ∃ ms, hvac_modes (__init__ ccu (thermostat true None HmHvacMode.HEAT "none")) = Ok ms ∧
        HVACMode.HEAT ∈ ms.
Proof.
  apply (hvac_mode_among_hvac_modes
           (__init__ ccu (thermostat true None HmHvacMode.HEAT "none")) HVACMode.HEAT).
  - reflexivity.
  - apply (bool_decide_unpack _). vm_compute. exact I.
  - reflexivity.
Defined.

(** X4. Setting a mode and reading it back agree: when a platform mode is
    forwarded as the device mode [hm] and the handle, valid, then reports
    [hm] as its current mode, the mode read is the one that was set. *)
Theorem hvac_mode_set_then_read (self : HaHomematicClimate.t)
    (m : HVACMode.t) (hm : HmHvacMode.t) (h : BaseClimateEntity.t) (w : World) :
  async_set_hvac_mode self m w = (Ok tt, with_call w (set_hvac_mode hm)) →
  BaseClimateEntity.is_valid h = true →
  BaseClimateEntity.hvac_mode h = hm →
  hvac_mode (observing self h) = Ok (Some m).
Proof.
  intros Hset Hvalid Hmode.
  assert (dict_get m HA_TO_HM_HVAC_MODE = Some hm) as Hget.
  { destruct (dict_get m HA_TO_HM_HVAC_MODE) as [hm'|] eqn:Hm.
    - rewrite (async_set_hvac_mode_mapped self m hm' w Hm) in Hset.
      injection Hset as Hcalls. apply app_inv_head in Hcalls. congruence.
    - unfold async_set_hvac_mode, dict_contains in Hset. rewrite Hm in Hset.
      simpl in Hset. injection Hset as Hcalls Hlog.
      apply (f_equal length) in Hcalls. rewrite length_app in Hcalls.
      simpl in Hcalls. lia. }
  rewrite (hvac_mode_valid (observing self h) Hvalid).
  change (_hm_entity (observing self h)) with h.
  rewrite Hmode. by rewrite (hvac_mode_round_trip_back m hm Hget).
Qed.

Lemma hvac_mode_set_then_read_witness :
  hvac_mode
    (observing (__init__ ccu (thermostat true None HmHvacMode.HEAT "none"))
       (thermostat true None HmHvacMode.AUTO "none"))
  = Ok (Some HVACMode.AUTO).
Proof.
  apply (hvac_mode_set_then_read
           (__init__ ccu (thermostat true None HmHvacMode.HEAT "none"))
           HVACMode.AUTO HmHvacMode.AUTO
           (thermostat true None HmHvacMode.AUTO "none") quiet_world);
    reflexivity.
Defined.

(** X5. While the handle is valid, the mode read is always one that can be
    set: asking for it is answered with a [set_hvac_mode] call, never with
    the warning, and when the handle's current mode has a table entry the
    call carries that very mode. *)
Theorem hvac_mode_read_then_set (self : HaHomematicClimate.t) (w : World) :
  BaseClimateEntity.is_valid (_hm_entity self) = true →
  ∃ m hm,
    hvac_mode self = Ok (Some m) ∧
    async_set_hvac_mode self m w = (Ok tt, with_call w (set_hvac_mode hm)) ∧
    (dict_contains (BaseClimateEntity.hvac_mode (_hm_entity self))
       HM_TO_HA_HVAC_MODE = true →
     hm = BaseClimateEntity.hvac_mode (_hm_entity self)).
Proof.
  intros Hvalid. rewrite (hvac_mode_valid self Hvalid). unfold dict_contains.
  destruct (dict_get (BaseClimateEntity.hvac_mode (_hm_entity self))
              HM_TO_HA_HVAC_MODE) as [m|] eqn:Hget; simpl.
  - exists m, (BaseClimateEntity.hvac_mode (_hm_entity self)).
    split; [done|]. split; [|done].
    apply async_set_hvac_mode_mapped.
    by apply (dict_inverse_round_trip _ _ _ HM_TO_HA_HVAC_MODE_injective).
  - exists HVACMode.OFF, HmHvacMode.OFF. split; [done|]. split; [|done].
    by apply async_set_hvac_mode_mapped.
Qed.

Lemma hvac_mode_read_then_set_witness :
  ∃ m hm,
    hvac_mode (__init__ ccu (thermostat true None (HmHvacMode.other "manu") "none"))
      = Ok (Some m) ∧
    async_set_hvac_mode
      (__init__ ccu (thermostat true None (HmHvacMode.other "manu") "none")) m quiet_world
      = (Ok tt, with_call quiet_world (set_hvac_mode hm)) ∧
    (dict_contains
       (BaseClimateEntity.hvac_mode
          (_hm_entity
             (__init__ ccu (thermostat true None (HmHvacMode.other "manu") "none"))))
       HM_TO_HA_HVAC_MODE = true →
     hm = BaseClimateEntity.hvac_mode
            (_hm_entity
               (__init__ ccu (thermostat true None (HmHvacMode.other "manu") "none")))).
Proof.
  apply (hvac_mode_read_then_set
           (__init__ ccu (thermostat true None (HmHvacMode.other "manu") "none"))
           quiet_world).
  reflexivity.
Defined.

(** ** The mode read from a snapshot *)

(** No HVAC mode is spelled like one of the two placeholder states. *)
Lemma HVACMode_value_known (m : HVACMode.t) :
  HVACMode.value m ∉ [STATE_UNKNOWN; STATE_UNAVAILABLE].
Proof. destruct m; apply (bool_decide_unpack _); vm_compute; exact I. Qed.

(** [HVACMode(value=...)] raises for a string that is no member's value. *)
Lemma HVACMode_call_stranger (s : string) :
  (∀ m, HVACMode.value m ≠ s) → HVACMode.call s = Raise (ValueError s).
Proof.
  intros Hstranger. unfold HVACMode.call.
  assert (list_find (fun m => HVACMode.value m = s) HVACMode.members = None) as ->;
    [|done].
  apply list_find_None, Forall_forall. intros m _. apply Hstranger.
Qed.

(** X6. A snapshot taken in mode [m] restores to mode [m]: with an invalid
    handle and a restored entity whose snapshot state is the value of the
    platform mode [m], the mode read is [m], for each of the seven platform
    modes, also for those the device tables do not know. *)
Theorem hvac_mode_restores_snapshot_mode (self : HaHomematicClimate.t)
    (s : State) (m : HVACMode.t) :
  BaseClimateEntity.is_valid (_hm_entity self) = false →
  is_restored self = true →
  _restored_state self = Some s →
  state s = HVACMode.value m →
  hvac_mode self = Ok (Some m).
Proof.
  intros Hinvalid Hrestored Hs Hstate. unfold hvac_mode.
  rewrite Hinvalid, Hrestored, Hs. simpl. rewrite Hstate.
  rewrite bool_decide_eq_false_2 by apply HVACMode_value_known. simpl.
  by rewrite HVACMode_call_value.
Qed.

Lemma hvac_mode_restores_snapshot_mode_witness :
  hvac_mode
    (restored (__init__ ccu (thermostat false None HmHvacMode.HEAT "none"))
       (Some (mkState "fan_only" ∅)))
  = Ok (Some HVACMode.FAN_ONLY).
Proof.
  apply (hvac_mode_restores_snapshot_mode _ (mkState "fan_only" ∅)); reflexivity.
Defined.

(** X7. With an invalid handle and a restored entity, a snapshot state
    that is neither a placeholder nor the value of any platform mode makes
    the mode read raise [ValueError]; with a placeholder state (unknown,
    unavailable) or without a snapshot the mode read is absent. *)
Theorem hvac_mode_snapshot_edges (self : HaHomematicClimate.t) :
  BaseClimateEntity.is_valid (_hm_entity self) = false →
  (∀ s, is_restored self = true →
        _restored_state self = Some s →
        state s ∉ [STATE_UNKNOWN; STATE_UNAVAILABLE] →
        (∀ m, HVACMode.value m ≠ state s) →
        hvac_mode self = Raise (ValueError (state s))) ∧
  (∀ s, _restored_state self = Some s →
        state s ∈ [STATE_UNKNOWN; STATE_UNAVAILABLE] →
        hvac_mode self = Ok None) ∧
  (_restored_state self = None → hvac_mode self = Ok None).
Proof.
  intros Hinvalid. unfold hvac_mode. rewrite Hinvalid. split; [|split].
  - intros s Hrestored Hs Hknown Hstranger. rewrite Hrestored, Hs. simpl.
    rewrite bool_decide_eq_false_2 by done. simpl.
    by rewrite HVACMode_call_stranger.
  - intros s Hs Hplaceholder. rewrite Hs.
    destruct (is_restored self); simpl; [|done].
    by rewrite bool_decide_eq_true_2.
  - intros Hs. rewrite Hs. by destruct (is_restored self).
Qed.

Lemma hvac_mode_snapshot_edges_witness :
  hvac_mode
    (restored (__init__ ccu (thermostat false None HmHvacMode.HEAT "none"))
       (Some (mkState "on" ∅)))
  = Raise (ValueError "on") ∧
  hvac_mode
    (restored (__init__ ccu (thermostat false None HmHvacMode.HEAT "none"))
       (Some (mkState "unavailable" ∅)))
  = Ok None.
Proof.
  split.
  - destruct (hvac_mode_snapshot_edges
                (restored (__init__ ccu (thermostat false None HmHvacMode.HEAT "none"))
                   (Some (mkState "on" ∅))) eq_refl) as (Hraise & _ & _).
    apply (Hraise (mkState "on" ∅)); try reflexivity.
    + apply (bool_decide_unpack _). vm_compute. exact I.
    + intros m. destruct m; discriminate.
  - destruct (hvac_mode_snapshot_edges
                (restored (__init__ ccu (thermostat false None HmHvacMode.HEAT "none"))
                   (Some (mkState "unavailable" ∅))) eq_refl) as (_ & Hnone & _).
    apply (Hnone (mkState "unavailable" ∅)); [reflexivity|].
    apply (bool_decide_unpack _). vm_compute. exact I.
Defined.

(** X8. While the handle is invalid, the two temperatures, the humidity
    and the mode are read without looking at the handle's live values: two
    invalid states of the handle, under which the entity is restored
    alike, give the same four readings. *)
Theorem invalid_handle_readings_ignore_live_values (self : HaHomematicClimate.t)
    (h h' : BaseClimateEntity.t) :
  BaseClimateEntity.is_valid h = false →
  BaseClimateEntity.is_valid h' = false →
  is_restored (observing self h) = is_restored (observing self h') →
  target_temperature (observing self h) = target_temperature (observing self h') ∧
  current_temperature (observing self h) = current_temperature (observing self h') ∧
  current_humidity (observing self h) = current_humidity (observing self h') ∧
  hvac_mode (observing self h) = hvac_mode (observing self h').
Proof.
  intros Hh Hh' Hrestored.
  unfold target_temperature, current_temperature, current_humidity, hvac_mode.
  rewrite Hrestored. simpl. by rewrite Hh, Hh'.
Qed.

Lemma invalid_handle_readings_ignore_live_values_witness :
  target_temperature
    (observing (restored (__init__ ccu (thermostat true None HmHvacMode.HEAT "none"))
                  (Some heating_snapshot))
       (thermostat false None HmHvacMode.HEAT "none"))
  = target_temperature
      (observing (restored (__init__ ccu (thermostat true None HmHvacMode.HEAT "none"))
                    (Some heating_snapshot))
         (thermostat false (Some HmHvacAction.IDLE) HmHvacMode.OFF "boost")).
Proof.
  apply (invalid_handle_readings_ignore_live_values
           (restored (__init__ ccu (thermostat true None HmHvacMode.HEAT "none"))
              (Some heating_snapshot))
           (thermostat false None HmHvacMode.HEAT "none")
           (thermostat false (Some HmHvacAction.IDLE) HmHvacMode.OFF "boost"));
    reflexivity.
Defined.

(** ** The list of exposed presets, entry by entry *)

Section PresetModesList.
Variable PRESET_MODE_PREFIX : string.

(** The loop appends once for every allow-listed preset and once for
    every prefixed preset. *)
Lemma preset_modes_loop_length (l : list PresetMode.t) (acc : list string) :
  length (foldl (preset_modes_body PRESET_MODE_PREFIX) acc l) =
  (length acc
   + length (filter (fun m => PresetMode.value m ∈ SUPPORTED_HA_PRESET_MODES) l)
   + length (filter (fun m => String.prefix PRESET_MODE_PREFIX (PresetMode.value m) = true) l))%nat.
Proof.
  revert acc. induction l as [|m l IH]; intros acc; simpl; [lia|].
  rewrite IH, !filter_cons. unfold preset_modes_body, PresetMode.str.
  case_bool_decide as Hsup;
    destruct (String.prefix PRESET_MODE_PREFIX (PresetMode.value m)) eqn:Hpre;
    rewrite ?(decide_True (P := PresetMode.value m ∈ _)) by done;
    rewrite ?(decide_False (P := PresetMode.value m ∈ _)) by done;
    rewrite ?(decide_True (P := true = true)) by done;
    rewrite ?(decide_False (P := false = true)) by done;
    rewrite ?length_app; simpl; lia.
Qed.

(** When no allow-listed value starts with the prefix, each exposed
    preset is appended once. *)
Lemma preset_modes_loop_exact (l : list PresetMode.t) (acc : list string) :
  Forall (fun v => String.prefix PRESET_MODE_PREFIX v = false) SUPPORTED_HA_PRESET_MODES →
  foldl (preset_modes_body PRESET_MODE_PREFIX) acc l =
  (acc ++ (PresetMode.value <$>
             filter (fun m => PresetMode.value m ∈ SUPPORTED_HA_PRESET_MODES ∨
                              String.prefix PRESET_MODE_PREFIX (PresetMode.value m) = true)
               l))%list.
Proof.
  intros Hapart. rewrite Forall_forall in Hapart.
  revert acc. induction l as [|m l IH]; intros acc; simpl.
  - by rewrite app_nil_r.
  - rewrite IH, filter_cons. unfold preset_modes_body, PresetMode.str.
    case_bool_decide as Hsup.
    + rewrite (Hapart _ Hsup). rewrite decide_True by (by left).
      by rewrite fmap_cons, <- app_assoc.
    + destruct (String.prefix PRESET_MODE_PREFIX (PresetMode.value m)) eqn:Hpre.
      * rewrite decide_True by (by right). by rewrite fmap_cons, <- app_assoc.
      * rewrite decide_False; [done|]. intros [?|?]; [done|congruence].
Qed.
End PresetModesList.

(** X9. The exposed preset list has one entry for every reported preset
    that is allow-listed plus one entry for every reported preset that
    starts with the prefix, so a preset that passes both tests is listed
    twice. *)
Theorem preset_modes_length (PRESET_MODE_PREFIX : string) (self : HaHomematicClimate.t) :
  length (preset_modes PRESET_MODE_PREFIX self) =
  (length (filter (fun m => PresetMode.value m ∈ SUPPORTED_HA_PRESET_MODES)
             (BaseClimateEntity.preset_modes (_hm_entity self)))
   + length (filter (fun m => String.prefix PRESET_MODE_PREFIX (PresetMode.value m) = true)
               (BaseClimateEntity.preset_modes (_hm_entity self))))%nat.
Proof. unfold preset_modes. by rewrite preset_modes_loop_length. Qed.

(** X10. When no allow-listed value starts with the prefix, the exposed
    preset list is the handle's list with the hidden presets taken out: the
    order is the handle's, and no preset is listed more often than the
    handle reports it. *)
Theorem preset_modes_filter (PRESET_MODE_PREFIX : string) (self : HaHomematicClimate.t) :
  Forall (fun v => String.prefix PRESET_MODE_PREFIX v = false) SUPPORTED_HA_PRESET_MODES →
  preset_modes PRESET_MODE_PREFIX self =
  PresetMode.value <$>
    filter (fun m => PresetMode.value m ∈ SUPPORTED_HA_PRESET_MODES ∨
                     String.prefix PRESET_MODE_PREFIX (PresetMode.value m) = true)
      (BaseClimateEntity.preset_modes (_hm_entity self)).
Proof.
  intros Hapart. unfold preset_modes. by rewrite preset_modes_loop_exact.
Qed.

Lemma preset_modes_filter_witness :
  preset_modes "week_program_"
    (__init__ ccu (thermostat true None HmHvacMode.HEAT "boost")) =
  PresetMode.value <$>
    filter (fun m => PresetMode.value m ∈ SUPPORTED_HA_PRESET_MODES ∨
                     String.prefix "week_program_" (PresetMode.value m) = true)
      (BaseClimateEntity.preset_modes
         (_hm_entity (__init__ ccu (thermostat true None HmHvacMode.HEAT "boost")))).
Proof.
  apply (preset_modes_filter "week_program_").
  apply (bool_decide_unpack _). vm_compute. exact I.
Defined.

(** X11. Reading the preset and setting it back agree: when the handle's
    current preset is one it reports, and it is either allow-listed on a
    valid handle or prefixed, the preset read is its value, and asking for
    that value is answered with exactly one [set_preset_mode] call that
    carries the same member. *)
Theorem preset_mode_read_then_set (PRESET_MODE_PREFIX : string)
    (PresetMode_values : list string) (self : HaHomematicClimate.t) (w : World) :
  BaseClimateEntity.preset_mode (_hm_entity self)
    ∈ BaseClimateEntity.preset_modes (_hm_entity self) →
  presets_are_members PresetMode_values self →
  (BaseClimateEntity.is_valid (_hm_entity self) = true ∧
   PresetMode.value (BaseClimateEntity.preset_mode (_hm_entity self))
     ∈ SUPPORTED_HA_PRESET_MODES) ∨
  String.prefix PRESET_MODE_PREFIX
    (PresetMode.value (BaseClimateEntity.preset_mode (_hm_entity self))) = true →
  preset_mode PRESET_MODE_PREFIX self =
    PyStr (PresetMode.value (BaseClimateEntity.preset_mode (_hm_entity self))) ∧
  async_set_preset_mode PRESET_MODE_PREFIX PresetMode_values self
    (PresetMode.value (BaseClimateEntity.preset_mode (_hm_entity self))) w =
    (Ok tt,
     with_call w (set_preset_mode (BaseClimateEntity.preset_mode (_hm_entity self)))).
Proof.
  intros Hreported Hmembers Hlive.
  assert (PresetMode.value (BaseClimateEntity.preset_mode (_hm_entity self))
            ∈ preset_modes PRESET_MODE_PREFIX self) as Hin.
  { apply preset_modes_elem_of. eexists. split; [done|]. split; [done|].
    destruct Hlive as [[_ Hsup]|Hpre]; [by left|by right]. }
  split.
  - unfold preset_mode, PresetMode.str.
    destruct Hlive as [[-> Hsup] | ->].
    + by rewrite bool_decide_eq_true_2.
    + by rewrite orb_true_r.
  - unfold async_set_preset_mode, bind, lift, handle_call.
    rewrite bool_decide_eq_true_2 by done. simpl.
    rewrite (PresetMode_call_exposed _ _ self _ Hmembers Hin).
    by destruct (BaseClimateEntity.preset_mode (_hm_entity self)).
Qed.

Lemma preset_mode_read_then_set_witness :
  preset_mode "week_program_"
    (__init__ ccu (thermostat true None HmHvacMode.HEAT "boost")) = PyStr "boost" ∧
  async_set_preset_mode "week_program_" ["boost"; "party"; "week_program_1"]
    (__init__ ccu (thermostat true None HmHvacMode.HEAT "boost")) "boost" quiet_world =
    (Ok tt, with_call quiet_world (set_preset_mode (PresetMode.mk "boost"))).
Proof.
  apply (preset_mode_read_then_set "week_program_" ["boost"; "party"; "week_program_1"]
           (__init__ ccu (thermostat true None HmHvacMode.HEAT "boost")) quiet_world).
  - apply (bool_decide_unpack _). vm_compute. exact I.
  - apply (bool_decide_unpack _). vm_compute. exact I.
  - left. split; [reflexivity|]. apply (bool_decide_unpack _). vm_compute. exact I.
Defined.

(** ** Commands *)

Lemma single_mark_nothing (w : World) : single_mark w w.
Proof. split; [done|]. by left. Qed.

Lemma single_mark_call (w : World) (c : HandleCall) : single_mark w (with_call w c).
Proof. split; [done|]. right. left. by exists c. Qed.

Lemma single_mark_record (w : World) (r : LogRecord) : single_mark w (with_record w r).
Proof. split; [done|]. right. right. by exists r. Qed.

(** X12. [async_set_temperature] reads nothing but the temperature: two
    sets of keyword arguments that agree on it (whatever else they hold, a
    mode or a temperature range, say) have the same effect, on any adapter. *)
Theorem async_set_temperature_reads_temperature_only
    (self self' : HaHomematicClimate.t) (kwargs kwargs' : gmap string PyVal) (w : World) :
  kwargs !! ATTR_TEMPERATURE = kwargs' !! ATTR_TEMPERATURE →
  async_set_temperature self kwargs w = async_set_temperature self' kwargs' w.
Proof.
  intros Hsame. unfold async_set_temperature, mapping_get. by rewrite Hsame.
Qed.

Lemma async_set_temperature_reads_temperature_only_witness :
  async_set_temperature (__init__ ccu (thermostat true None HmHvacMode.HEAT "none"))
    (<["hvac_mode" := PyStr "off"]> (<[ATTR_TEMPERATURE := PyFloat 22.5%float]> ∅))
    quiet_world =
  async_set_temperature (__init__ ccu (thermostat true None HmHvacMode.HEAT "none"))
    (<[ATTR_TEMPERATURE := PyFloat 22.5%float]> ∅) quiet_world.
Proof.
  apply async_set_temperature_reads_temperature_only. reflexivity.
Defined.

(** X13. Every command leaves at most one mark.  When it returns it has
    kept the clock, every earlier call on the handle and every earlier log
    record, and has added nothing, or exactly one call, or exactly one log
    record, never both; when it raises it has changed nothing. *)
Theorem commands_footprint (PRESET_MODE_PREFIX : string)
    (PresetMode_values : list string) (self : HaHomematicClimate.t) (w : World)
    (kwargs : gmap string PyVal) (requested_mode : HVACMode.t) (requested_preset : string)
    (start : option datetime.t) (end_ : datetime.t) (away_temperature : float)
    (hours : Z) :
  footprint (async_set_temperature self kwargs) w ∧
  footprint (async_set_hvac_mode self requested_mode) w ∧
  footprint (async_set_preset_mode PRESET_MODE_PREFIX PresetMode_values self
               requested_preset) w ∧
  footprint (async_enable_away_mode_by_calendar self end_ away_temperature start) w ∧
  footprint (async_enable_away_mode_by_duration self hours away_temperature) w ∧
  footprint (async_disable_away_mode self) w.
Proof.
  unfold footprint. repeat split.
  - unfold async_set_temperature.
    destruct (is_none (mapping_get kwargs ATTR_TEMPERATURE));
      [apply single_mark_nothing | apply single_mark_call].
  - unfold async_set_hvac_mode, dict_contains, dict_getitem, bind, lift.
    destruct (dict_get requested_mode HA_TO_HM_HVAC_MODE);
      [apply single_mark_call | apply single_mark_record].
  - unfold async_set_preset_mode, bind, lift.
    case_bool_decide; simpl.
    + unfold PresetMode_call. case_bool_decide; [apply single_mark_call | done].
    + destruct (hvac_mode self); [apply single_mark_record | done].
  - unfold async_enable_away_mode_by_calendar, bind, lift, datetime_now, datetime_sub.
    destruct start as [given|]; simpl; [apply single_mark_call|].
    destruct (datetime.in_range _); [apply single_mark_call | done].
  - apply single_mark_call.
  - apply single_mark_call.
Qed.

(** X14. Without a start time, a clock that reads less than ten minutes
    past [datetime.min] makes [async_enable_away_mode_by_calendar] raise
    [OverflowError] before the handle is called. *)
Theorem async_enable_away_mode_by_calendar_overflow (self : HaHomematicClimate.t)
    (end_ : datetime.t) (away_temperature : float) (w : World) :
  datetime.micros (clock w) < 600000000 →
  async_enable_away_mode_by_calendar self end_ away_temperature None w =
    (Raise OverflowError, w).
Proof.
  intros Hearly.
  unfold async_enable_away_mode_by_calendar, bind, datetime_now, lift, datetime_sub.
  rewrite ten_minutes.
  assert (datetime.in_range (datetime.micros (clock w) - 600000000) = false) as ->;
    [|done].
  unfold datetime.in_range. apply andb_false_intro1. lia.
Qed.

Lemma async_enable_away_mode_by_calendar_overflow_witness :
  async_enable_away_mode_by_calendar
    (__init__ ccu (thermostat true None HmHvacMode.HEAT "none"))
    (datetime.mk (86400 * 1000000)) 17%float None (mkWorld (datetime.mk 599999999) [] []) =
  (Raise OverflowError, mkWorld (datetime.mk 599999999) [] []).
Proof.
  apply (async_enable_away_mode_by_calendar_overflow
           (__init__ ccu (thermostat true None HmHvacMode.HEAT "none"))
           (datetime.mk (86400 * 1000000)) 17%float
           (mkWorld (datetime.mk 599999999) [] [])).
  reflexivity.
Defined.

(** ** Features *)

(** X15. The feature set never holds TARGET_TEMPERATURE_RANGE,
    TARGET_HUMIDITY, FAN_MODE, SWING_MODE or AUX_HEAT, whatever the handle
    reports. *)
Theorem supported_features_nothing_else (self : HaHomematicClimate.t) :
  Forall (fun flag => ClimateEntityFeature.contains (supported_features self) flag = false)
    [ClimateEntityFeature.TARGET_TEMPERATURE_RANGE;
     ClimateEntityFeature.TARGET_HUMIDITY;
     ClimateEntityFeature.FAN_MODE;
     ClimateEntityFeature.SWING_MODE;
     ClimateEntityFeature.AUX_HEAT].
Proof.
  unfold supported_features.
  destruct (BaseClimateEntity.supports_preset (_hm_entity self));
    repeat constructor.
Qed.

(** ** Discovery *)

